(** * Rot2proG: the SPID rot2proG rotor controller interface

    A shallow embedding of the protocol part of [rot2proG_serial_v2.py]
    (class [Rot2proG]: [status], [stop] and [set]) and the properties of
    its frames.

    Modelling choices.
    - A [bytes] object is a [list byte]; a Python [int] is a [Z]; a [str]
      is a [list ascii].
    - A Python [float] is an exact rational ([Q]): the rounding of binary64
      arithmetic is not modelled, and neither are infinities and NaN (which
      the range assertions of [set] reject anyway).
    - A Python exception is a value [Raise e] of the [result] type; the
      methods of the class thread the object ([Session]) explicitly, so that
      the state a raised exception leaves behind is visible.
    - The serial port is the log of the packets written to it and the bytes
      the controller is going to send.  [print], [flush] and [time.sleep]
      leave no trace in that state. *)

From Stdlib Require Import ZArith QArith Qround List Ascii String Bool Lia Lqa.
From Stdlib.Strings Require Import Byte.
Import ListNotations.

Local Open Scope Z_scope.

(** ** The Python built-ins the class uses *)

Module Py.

Inductive exn : Set :=
| AssertionError
| IndexError
| ValueError.

Inductive result (A : Type) : Type :=
| Ok (a : A)
| Raise (e : exn).

Arguments Ok {A} a.
Arguments Raise {A} e.

Definition bind {A B : Type} (r : result A) (k : A -> result B) : result B :=
  match r with
  | Ok a => k a
  | Raise e => Raise e
  end.

(** [assert(b)] *)
Definition assert (b : bool) : result unit :=
  if b then Ok tt else Raise AssertionError.

(** [l[i]] on a sequence, with Python's negative indices counting from the
    end; out of range raises [IndexError]. *)
Definition getitem {A : Type} (l : list A) (i : Z) : result A :=
  let n := Z.of_nat (List.length l) in
  let j := if i <? 0 then i + n else i in
  if (0 <=? j) && (j <? n)
  then match nth_error l (Z.to_nat j) with
       | Some x => Ok x
       | None => Raise IndexError
       end
  else Raise IndexError.

(** The [int] that indexing a [bytes] object gives. *)
Definition int_of_byte (b : byte) : Z := Z.of_N (Byte.to_N b).

(** [bytes(l)] for a list of [int]: every element must be in [range(256)]. *)
Fixpoint bytes (l : list Z) : result (list byte) :=
  match l with
  | [] => Ok []
  | x :: l' =>
      if (0 <=? x) && (x <? 256)
      then match Byte.of_N (Z.to_N x) with
           | Some b => bind (bytes l') (fun bs => Ok (b :: bs))
           | None => Raise ValueError
           end
      else Raise ValueError
  end.

(** [int(x)] for a float [x]: truncation towards zero. *)
Definition int_of_float (x : Q) : Z :=
  if Qle_bool 0 x then Qfloor x else Qceiling x.

(** The character of a decimal digit. *)
Definition digit_char (d : Z) : ascii := ascii_of_N (Z.to_N (48 + d)).

(** The decimal digits of a natural number, least significant first. *)
Fixpoint digits_lsf (fuel : nat) (n : Z) : list Z :=
  match fuel with
  | O => []
  | S fuel' => n mod 10 :: (if n <? 10 then [] else digits_lsf fuel' (n / 10))
  end.

Definition str_of_nat (n : Z) : list ascii :=
  map digit_char (rev (digits_lsf (S (Z.to_nat (Z.log2 n))) n)).

(** [str(n)] for an [int]. *)
Definition str (n : Z) : list ascii :=
  if n <? 0 then "-"%char :: str_of_nat (- n) else str_of_nat n.

(** [int(c)] for a string of one character [c]. *)
Definition int_of_char (c : ascii) : result Z :=
  let n := Z.of_N (N_of_ascii c) in
  if (48 <=? n) && (n <=? 57) then Ok (n - 48) else Raise ValueError.

End Py.

Import Py.

(** ** The serial port *)

Record Serial : Type := mkSerial {
  written : list (list byte);   (* the packets written so far, oldest first *)
  incoming : list byte          (* the bytes the controller sends next *)
}.

(** ** The object: class attributes and the port *)

Record Session : Type := mkSession {
  pulse : Z;
  debug : bool;
  dev_path : string;
  ser : Serial
}.

Definition max_az : Q := 360.
Definition min_az : Q := -180.
Definition max_el : Q := 180.
Definition min_el : Q := 0.

(** A method: the object before, the object after and what the call gave. *)
Definition M (A : Type) : Type := Session -> Session * result A.

Definition ret {A : Type} (a : A) : M A := fun s => (s, Ok a).

Definition lift {A : Type} (r : result A) : M A := fun s => (s, r).

Definition mbind {A B : Type} (m : M A) (k : A -> M B) : M B :=
  fun s =>
    match m s with
    | (s', Ok a) => k a s'
    | (s', Raise e) => (s', Raise e)
    end.

Declare Scope rot_scope.
Delimit Scope rot_scope with rot.
Notation "x <- m ;; k" := (mbind m (fun x => k))
  (at level 61, m at next level, right associativity) : rot_scope.
Notation "m ;;; k" := (mbind m (fun _ => k))
  (at level 61, right associativity) : rot_scope.
Local Open Scope rot_scope.

(** [self.ser.write(packet)] *)
Definition ser_write (packet : list byte) : M unit :=
  fun s =>
    (mkSession (pulse s) (debug s) (dev_path s)
       (mkSerial (written (ser s) ++ [packet]) (incoming (ser s))),
     Ok tt).

(** [self.ser.flush()] *)
Definition ser_flush : M unit := ret tt.

(** [self.ser.read(n)]: the next [n] bytes of the controller (fewer when the
    port gives up before [n] bytes came, which a port opened with
    [timeout=None] does not do). *)
Definition ser_read (n : nat) : M (list byte) :=
  fun s =>
    (mkSession (pulse s) (debug s) (dev_path s)
       (mkSerial (written (ser s)) (skipn n (incoming (ser s)))),
     Ok (firstn n (incoming (ser s)))).

(** [self.pulse = p] *)
Definition set_pulse (p : Z) : M unit :=
  fun s => (mkSession p (debug s) (dev_path s) (ser s), Ok tt).

(** [self.pulse] *)
Definition get_pulse : M Z := fun s => (s, Ok (pulse s)).

(** [rec_packet[i]] as an [int] *)
Definition rec_int (rec_packet : list byte) (i : Z) : M Z :=
  lift (bind (getitem rec_packet i) (fun b => Ok (int_of_byte b))).

(** ** [status] (lines 85 to 110) *)

Definition status : M (Q * Q * Z) :=
  let cmd := [0x57; 0x00; 0x00; 0x00; 0x00; 0x00; 0x00; 0x00; 0x00; 0x00; 0x00; 0x1f; 0x20] in
  packet <- lift (bytes cmd) ;;
  ser_write packet ;;;
  ser_flush ;;;
  rec_packet <- ser_read 12 ;;
  a1 <- rec_int rec_packet 1 ;;
  a2 <- rec_int rec_packet 2 ;;
  a3 <- rec_int rec_packet 3 ;;
  a4 <- rec_int rec_packet 4 ;;
  let az := (inject_Z (a1 * 100 + a2 * 10 + a3) + inject_Z a4 / 10 - 360)%Q in
  e1 <- rec_int rec_packet 6 ;;
  e2 <- rec_int rec_packet 7 ;;
  e3 <- rec_int rec_packet 8 ;;
  e4 <- rec_int rec_packet 9 ;;
  let el := (inject_Z (e1 * 100 + e2 * 10 + e3) + inject_Z e4 / 10 - 360)%Q in
  ph <- rec_int rec_packet 5 ;;
  pv <- rec_int rec_packet 10 ;;
  let ret_ := (az, el, ph) in
  lift (assert (ph =? pv)) ;;;
  set_pulse ph ;;;
  ret ret_.

(** ** [stop] (lines 119 to 145) *)

Definition stop : M (Q * Q * Z) :=
  let cmd := [0x57; 0x00; 0x00; 0x00; 0x00; 0x00; 0x00; 0x00; 0x00; 0x00; 0x00; 0x0f; 0x20] in
  packet <- lift (bytes cmd) ;;
  ser_write packet ;;;
  ser_flush ;;;
  rec_packet <- ser_read 12 ;;
  a1 <- rec_int rec_packet 1 ;;
  a2 <- rec_int rec_packet 2 ;;
  a3 <- rec_int rec_packet 3 ;;
  a4 <- rec_int rec_packet 4 ;;
  let az := (inject_Z (a1 * 100 + a2 * 10 + a3) + inject_Z a4 / 10 - 360)%Q in
  e1 <- rec_int rec_packet 6 ;;
  e2 <- rec_int rec_packet 7 ;;
  e3 <- rec_int rec_packet 8 ;;
  e4 <- rec_int rec_packet 9 ;;
  let el := (inject_Z (e1 * 100 + e2 * 10 + e3) + inject_Z e4 / 10 - 360)%Q in
  ph <- rec_int rec_packet 5 ;;
  pv <- rec_int rec_packet 10 ;;
  let ret_ := (az, el, ph) in
  lift (assert (ph =? pv)) ;;;
  set_pulse ph ;;;
  ret ret_.

(** ** [set] (lines 153 to 176) *)

(** [int(s[i])] for the digit strings of [set]. *)
Definition digit_at (s : list ascii) (i : Z) : result Z :=
  bind (getitem s i) int_of_char.

(** The padded strings of lines 160 and 161. *)
Definition padded (p : Z) (v : Q) : list ascii :=
  "0"%char :: str (int_of_float (inject_Z p * (v + 360))%Q).

(** The list [cmd] of line 163, its elements evaluated from left to right. *)
Definition set_cmd (p : Z) (azi eli : Q) : result (list Z) :=
  let az := padded p azi in
  let el := padded p eli in
  bind (digit_at az (-4)) (fun a1 =>
  bind (digit_at az (-3)) (fun a2 =>
  bind (digit_at az (-2)) (fun a3 =>
  bind (digit_at az (-1)) (fun a4 =>
  bind (digit_at el (-4)) (fun e1 =>
  bind (digit_at el (-3)) (fun e2 =>
  bind (digit_at el (-2)) (fun e3 =>
  bind (digit_at el (-1)) (fun e4 =>
  Ok [0x57; a1; a2; a3; a4; p; e1; e2; e3; e4; p; 0x2f; 0x20])))))))).

Definition set (azi eli : Q) : M unit :=
  lift (assert (Qle_bool azi max_az)) ;;;
  lift (assert (Qle_bool min_az azi)) ;;;
  lift (assert (Qle_bool eli max_el)) ;;;
  lift (assert (Qle_bool min_el eli)) ;;;
  p <- get_pulse ;;
  cmd <- lift (set_cmd p azi eli) ;;
  packet <- lift (bytes cmd) ;;
  ser_write packet ;;;
  ser_flush.

(** ** Frames, domains and the sessions used below *)

(** The command frames of [status] and [stop], as [bytes]. *)
Definition status_frame : list byte :=
  [x57; x00; x00; x00; x00; x00; x00; x00; x00; x00; x00; x1f; x20].

Definition stop_frame : list byte :=
  [x57; x00; x00; x00; x00; x00; x00; x00; x00; x00; x00; x0f; x20].

(** The decoding formula as the protocol description words it:
    hundreds*100 + tens*10 + units + tenths/10 - 360.0. *)
Definition degrees (hundreds tens units tenths : Z) : Q :=
  (inject_Z hundreds * 100 + inject_Z tens * 10 + inject_Z units
   + inject_Z tenths / 10 - 360)%Q.

(** Lines 93 to 96 (and 128 to 131) on their own: what [status] and [stop]
    read off the received packet, the subscripts in the order of the code. *)
Definition decode (rec_packet : list byte) : result (Q * Q * Z * Z) :=
  let at_ i := bind (getitem rec_packet i) (fun b => Ok (int_of_byte b)) in
  bind (at_ 1) (fun a1 =>
  bind (at_ 2) (fun a2 =>
  bind (at_ 3) (fun a3 =>
  bind (at_ 4) (fun a4 =>
  bind (at_ 6) (fun e1 =>
  bind (at_ 7) (fun e2 =>
  bind (at_ 8) (fun e3 =>
  bind (at_ 9) (fun e4 =>
  bind (at_ 5) (fun ph =>
  bind (at_ 10) (fun pv =>
  Ok ((inject_Z (a1 * 100 + a2 * 10 + a3) + inject_Z a4 / 10 - 360)%Q,
      (inject_Z (e1 * 100 + e2 * 10 + e3) + inject_Z e4 / 10 - 360)%Q,
      ph, pv))))))))))).

(** The object once a command frame went out and the answer was read. *)
Definition exchanged (frame : list byte) (s : Session) : Session :=
  mkSession (pulse s) (debug s) (dev_path s)
    (mkSerial (written (ser s) ++ [frame]) (skipn 12 (incoming (ser s)))).

Definition with_pulse (p : Z) (s : Session) : Session :=
  mkSession p (debug s) (dev_path s) (ser s).

Definition with_incoming (rx : list byte) (s : Session) : Session :=
  mkSession (pulse s) (debug s) (dev_path s) (mkSerial (written (ser s)) rx).

(** What [status] and [stop] do after the command frame [frame]. *)
Definition exchange (frame : list byte) (s : Session) : Session * result (Q * Q * Z) :=
  match decode (firstn 12 (incoming (ser s))) with
  | Ok (az, el, ph, pv) =>
      if ph =? pv
      then (with_pulse ph (exchanged frame s), Ok (az, el, ph))
      else (exchanged frame s, Raise AssertionError)
  | Raise e => (exchanged frame s, Raise e)
  end.

(** The domain of [set]. *)
Definition az_in_range (azi : Q) : Prop := (min_az <= azi /\ azi <= max_az)%Q.
Definition el_in_range (eli : Q) : Prop := (min_el <= eli /\ eli <= max_el)%Q.

(** The number [set] writes in decimal for an axis, as the protocol
    description words it: floor(p * (v + 360)). *)
Definition raw (p : Z) (v : Q) : Z := Qfloor (inject_Z p * (v + 360))%Q.

(** A new object on a port whose controller sends [rx]: the class attributes
    have their defaults. *)
Definition fresh (rx : list byte) : Session :=
  mkSession 0 false "COM17" (mkSerial [] rx).

(** ** The constructor (lines 44 to 53) *)

(** [self.debug = b] *)
Definition set_debug (b : bool) : M unit :=
  fun s => (mkSession (pulse s) b (dev_path s) (ser s), Ok tt).

(** [Rot2proG(dev_path, debugging)] on the opened port [port]: the class
    attributes [pulse = 0] and [debug = False] hold while [status] runs. *)
Definition init (path : string) (debugging : bool) (port : Serial)
  : Session * result unit :=
  (status ;;; set_debug debugging) (mkSession 0 false path port).

(** ** [test_spiros] (lines 206 to 209) *)

Definition test_spiros : M unit :=
  status ;;; stop ;;; set 90 90.

(** ** The [set] command of [cmd_mode] (lines 354 to 364 and 393 to 395)

    The two numbers have been read; an [AssertionError] of [set] is caught
    by the inner handler and a [ValueError] by the handler of the loop, and
    either way the loop goes on.  Any other exception leaves [cmd_mode]. *)
Definition cmd_mode_set (az el : Q) : M unit :=
  fun s =>
    match set az el s with
    | (s', Raise AssertionError) => (s', Ok tt)
    | (s', Raise ValueError) => (s', Ok tt)
    | r => r
    end.

(** ** The manual page (lines 216 to 332)

    The window is what was drawn on it: the calls of [addnstr], [addstr]
    and [refresh] in their order. *)

Inductive attr : Set :=
| A_NORMAL
| A_BOLD
| A_REVERSE.

Inductive draw : Set :=
| Addnstr (y x : Z) (text : string) (n : Z) (a : attr)
| Addstr (y x : Z) (text : string) (a : attr)
| Refresh.

Definition content : list (string * attr) :=
  [("ROT2PROG                                                        Command Mode ", A_NORMAL);
   ("                                                                             ", A_NORMAL);
   ("NAME                                                                         ", A_BOLD);
   ("    Rot2proG [command mode] - terminal interface for rotor controller        ", A_NORMAL);
   ("                                                                             ", A_NORMAL);
   ("DESCRIPTION                                                                  ", A_BOLD);
   ("    ...                                                                      ", A_NORMAL);
   ("                                                                             ", A_NORMAL);
   ("FUNCTIONS                                                                    ", A_BOLD);
   ("                                                                             ", A_NORMAL);
   ("      STATUS, status                                                         ", A_BOLD);
   ("           return current azimuth, elevation and pulse per degree of rotor   ", A_NORMAL);
   ("                                                                             ", A_NORMAL);
   ("      STOP, stop                                                             ", A_BOLD);
   ("           stop the rotor if it is moving and return the approximate         ", A_NORMAL);
   ("           azimuth, elevation and pulse per degree of the rotor where        ", A_NORMAL);
   ("           it stopped                                                        ", A_NORMAL);
   ("                                                                             ", A_NORMAL);
   ("      SET, set                                                               ", A_BOLD);
   ("           provide an azimuth and elevation and the rotor will change its    ", A_NORMAL);
   ("           heading towards the designated location (no return value)         ", A_NORMAL);
   ("                                                                             ", A_NORMAL);
   ("      DEV, DEVICE, dev, device                                               ", A_BOLD);
   ("           displays information about the connected device (path, name,      ", A_NORMAL);
   ("           protocol)                                                         ", A_NORMAL);
   ("                                                                             ", A_NORMAL);
   ("      NEW DEVICE, new device                                                 ", A_BOLD);
   ("           change the serial device given the absolute device path           ", A_NORMAL);
   ("                                                                             ", A_NORMAL);
   ("      CLEAR, clear                                                           ", A_BOLD);
   ("           clear the terminal screen                                         ", A_NORMAL);
   ("                                                                             ", A_NORMAL);
   ("      HELP, help                                                             ", A_BOLD);
   ("           display documentation outlining the functionality and commands    ", A_NORMAL);
   ("           used in rot2proG command mode                                     ", A_NORMAL);
   ("                                                                             ", A_NORMAL);
   ("      EXIT, exit                                                             ", A_BOLD);
   ("           terminates the rot2proG command mode                              ", A_NORMAL);
   ("                                                                             ", A_NORMAL);
   ("AUTHOR                                                                       ", A_BOLD);
   ("           Written by Jaiden Ferraccioli                                     ", A_NORMAL);
   ("                                                                             ", A_NORMAL);
   ("UBNL rot2proG                                                      July 2016 ", A_NORMAL);
   ("                                                                             ", A_NORMAL)]%string.

Definition footer : string :=
  " Manual page rot2proG [command mode] press q to quit ".

Definition footer_end : string :=
  " Manual page rot2proG [command mode] (END) press q to quit ".

Definition blank : string :=
  "                                                                             ".

(** The loop of [man_draw] on the lines of [content] from [start] on. *)
Fixpoint man_draw_loop (h w line : Z) (rest : list (string * attr)) : list draw :=
  match rest with
  | [] => []
  | (text, a) :: rest' =>
      if line <? h
      then Addnstr line 0 text w a
           :: Addstr (h - 1) 0 footer A_REVERSE
           :: man_draw_loop h w (line + 1) rest'
      else []
  end.

(** [man_draw(stdscr, start)] on a window of [maxyx = (h, w)]. *)
Definition man_draw (maxyx : Z * Z) (start : Z) : list draw :=
  let start := if start <? 0 then 0 else start in
  man_draw_loop (fst maxyx) (snd maxyx) 1 (skipn (Z.to_nat start) content)
  ++ [Refresh].

Definition KEY_DOWN : Z := 258.
Definition KEY_UP : Z := 259.
Definition KEY_F11 : Z := 275.

(** One turn of the loop of [manual]: the size of the window, whether it
    was touched, the key [c] and the position [pos]; [None] when [q] ends
    the loop. *)
Definition manual_key (maxyx : Z * Z) (touched : bool) (c : Z) (pos : Z)
  : option Z * list draw :=
  let h := fst maxyx in
  let w := snd maxyx in
  let pre := if touched then man_draw maxyx 0 else [] in
  let bar text :=
    [Addnstr (h - 1) 0 blank w A_NORMAL; Addnstr (h - 1) 0 text w A_REVERSE] in
  if c =? 113 then (None, pre)
  else if c =? KEY_UP then
    let pos := pos - 1 in
    let pos := if pos <? 0 then 0 else pos in
    (Some pos, pre ++ man_draw maxyx pos ++ bar footer)
  else if c =? KEY_DOWN then
    if 45 - h <=? pos then (Some pos, pre ++ man_draw maxyx pos ++ bar footer_end)
    else if 45 - pos >? h then
      let pos := pos + 1 in
      (Some pos, pre ++ man_draw maxyx pos ++ bar footer)
    else
      let pos := pos + 1 in
      (Some pos, pre ++ man_draw maxyx pos ++ bar footer)
  else if c =? KEY_F11 then (Some pos, pre ++ man_draw maxyx 0 ++ bar footer)
  else (Some pos, pre).

(** The loop of [manual] on the keys that come, from position [pos]: the
    position it ends at and what it drew. *)
Fixpoint manual_loop (events : list ((Z * Z) * bool * Z)) (pos : Z)
  : Z * list draw :=
  match events with
  | [] => (pos, [])
  | (maxyx, touched, c) :: events' =>
      match manual_key maxyx touched c pos with
      | (None, d) => (pos, d)
      | (Some pos', d) =>
          let (pos'', d') := manual_loop events' pos' in (pos'', d ++ d')
      end
  end.

(** The rows of the lines of [content] in a list of calls. *)
Fixpoint content_rows (l : list draw) : list Z :=
  match l with
  | [] => []
  | Addnstr y _ _ _ _ :: l' => y :: content_rows l'
  | _ :: l' => content_rows l'
  end.

(** The rows [line], [line + 1], ... of [k] lines. *)
Definition rows_from (line : Z) (k : nat) : list Z :=
  map (fun i => line + Z.of_nat i) (seq 0 k).

(** ** The built-ins *)

Example str_examples :
  str 0 = ["0"%char] /\ str 450 = ["4"; "5"; "0"]%char /\
  str (-50) = ["-"; "5"; "0"]%char /\
  str 183600 = ["1"; "8"; "3"; "6"; "0"; "0"]%char.
Proof. repeat split. Qed.

Example int_of_float_examples :
  int_of_float (7 # 2) = 3 /\ int_of_float (- (7 # 2)) = -3 /\ int_of_float 450 = 450.
Proof. repeat split. Qed.

Example getitem_examples :
  getitem [x57; x04; x05] 1 = Ok x04 /\ getitem [x57; x04; x05] (-1) = Ok x05 /\
  getitem [x57; x04; x05] 3 = Raise IndexError /\
  getitem [x57; x04; x05] (-4) = Raise IndexError.
Proof. repeat split. Qed.

(** The digits of [str] are those of the number: the fuel is enough. *)
Lemma digits_lsf_value (fuel : nat) (n : Z) :
  0 <= n < 2 ^ Z.of_nat fuel -> (0 < fuel)%nat ->
  fold_right (fun d acc => d + 10 * acc) 0 (digits_lsf fuel n) = n.
Proof.
  revert n. induction fuel as [|fuel IH]; intros n Hn Hf; [lia|].
  cbn [digits_lsf]. destruct (n <? 10) eqn:E.
  - apply Z.ltb_lt in E. cbn [fold_right]. rewrite Z.mod_small by lia. lia.
  - apply Z.ltb_ge in E. cbn [fold_right].
    assert (Hpow : 2 ^ Z.of_nat (S fuel) = 2 * 2 ^ Z.of_nat fuel).
    { rewrite Nat2Z.inj_succ, Z.pow_succ_r by lia. reflexivity. }
    assert (Hfuel : (0 < fuel)%nat).
    { destruct fuel; [cbn in Hn; lia | lia]. }
    rewrite IH; [| |exact Hfuel].
    + pose proof (Z.div_mod n 10 ltac:(lia)). lia.
    + split; [apply Z.div_pos; lia|].
      apply Z.div_lt_upper_bound; lia.
Qed.

Lemma str_of_nat_value (n : Z) :
  0 <= n ->
  fold_right (fun d acc => d + 10 * acc) 0
    (digits_lsf (S (Z.to_nat (Z.log2 n))) n) = n.
Proof.
  intros Hn. apply digits_lsf_value; [|lia].
  split; [exact Hn|].
  rewrite Nat2Z.inj_succ, Z2Nat.id by apply Z.log2_nonneg.
  destruct (Z.eq_dec n 0) as [-> | Hz]; [reflexivity|].
  apply Z.log2_spec. lia.
Qed.

Lemma getitem_nth {A : Type} (l : list A) (i : Z) (x : A) :
  0 <= i -> nth_error l (Z.to_nat i) = Some x -> getitem l i = Ok x.
Proof.
  intros Hi Hx. unfold getitem.
  assert (Hlt : (Z.to_nat i < List.length l)%nat)
    by (apply nth_error_Some; congruence).
  replace (i <? 0) with false by (symmetry; apply Z.ltb_ge; lia).
  replace ((0 <=? i) && (i <? Z.of_nat (List.length l))) with true.
  - rewrite Hx. reflexivity.
  - symmetry. apply andb_true_iff. split; [apply Z.leb_le | apply Z.ltb_lt]; lia.
Qed.

Lemma int_of_byte_inj (b c : byte) : int_of_byte b = int_of_byte c -> b = c.
Proof.
  unfold int_of_byte. intros H. apply N2Z.inj in H.
  pose proof (Byte.of_to_N b) as Hb. rewrite H in Hb.
  rewrite Byte.of_to_N in Hb. congruence.
Qed.

Lemma int_of_byte_range (b : byte) : 0 <= int_of_byte b <= 255.
Proof.
  unfold int_of_byte. pose proof (Byte.to_N_bounded b). lia.
Qed.

(** ** [status] and [stop] are one exchange, up to the command frame *)

Lemma bytes_status_cmd :
  bytes [0x57; 0x00; 0x00; 0x00; 0x00; 0x00; 0x00; 0x00; 0x00; 0x00; 0x00; 0x1f; 0x20]
  = Ok status_frame.
Proof. reflexivity. Qed.

Lemma bytes_stop_cmd :
  bytes [0x57; 0x00; 0x00; 0x00; 0x00; 0x00; 0x00; 0x00; 0x00; 0x00; 0x00; 0x0f; 0x20]
  = Ok stop_frame.
Proof. reflexivity. Qed.

Ltac run_exchange :=
  unfold status, stop, exchange, decode, mbind, rec_int, lift, ser_read, ser_write,
    ser_flush, ret, set_pulse;
  cbv zeta;
  rewrite ?bytes_status_cmd, ?bytes_stop_cmd;
  unfold with_pulse, exchanged, assert;
  cbn [pulse debug dev_path ser written incoming];
  repeat match goal with
    | |- context [getitem ?l ?i] => destruct (getitem l i); cbn [bind]; try reflexivity
    end;
  match goal with
  | |- context [Z.eqb ?a ?b] => destruct (Z.eqb a b); reflexivity
  end.

Lemma status_exchange (s : Session) : status s = exchange status_frame s.
Proof. run_exchange. Qed.

Lemma stop_exchange (s : Session) : stop s = exchange stop_frame s.
Proof. run_exchange. Qed.

(** A cached pulse resolution that came from a response is a byte. *)
Lemma exchange_pulse_byte (frame : list byte) (s : Session) :
  0 <= pulse s <= 255 -> 0 <= pulse (fst (exchange frame s)) <= 255.
Proof.
  intros Hs. unfold exchange, decode.
  repeat match goal with
    | |- context [getitem ?l ?i] =>
        destruct (getitem l i); cbn [bind]; [|exact Hs]
    end.
  destruct (_ =? _); cbn [fst with_pulse exchanged pulse];
    [apply int_of_byte_range | exact Hs].
Qed.

Lemma decode_frame (b0 b1 b2 b3 b4 b5 b6 b7 b8 b9 b10 : byte) (tail : list byte) :
  decode (b0 :: b1 :: b2 :: b3 :: b4 :: b5 :: b6 :: b7 :: b8 :: b9 :: b10 :: tail) =
  Ok ((inject_Z (int_of_byte b1 * 100 + int_of_byte b2 * 10 + int_of_byte b3)
       + inject_Z (int_of_byte b4) / 10 - 360)%Q,
      (inject_Z (int_of_byte b6 * 100 + int_of_byte b7 * 10 + int_of_byte b8)
       + inject_Z (int_of_byte b9) / 10 - 360)%Q,
      int_of_byte b5, int_of_byte b10).
Proof.
  unfold decode.
  rewrite (getitem_nth _ 1 b1), (getitem_nth _ 2 b2), (getitem_nth _ 3 b3),
    (getitem_nth _ 4 b4), (getitem_nth _ 6 b6), (getitem_nth _ 7 b7),
    (getitem_nth _ 8 b8), (getitem_nth _ 9 b9), (getitem_nth _ 5 b5),
    (getitem_nth _ 10 b10) by (try lia; reflexivity).
  reflexivity.
Qed.

Lemma decode_short (l : list byte) :
  (List.length l <= 10)%nat -> decode l = Raise IndexError.
Proof.
  intros H.
  do 11 (destruct l as [|? l]; [reflexivity|]).
  cbn [List.length] in H. lia.
Qed.

Lemma degrees_spec (h t u d : Z) :
  (inject_Z (h * 100 + t * 10 + u) + inject_Z d / 10 - 360 == degrees h t u d)%Q.
Proof.
  unfold degrees. rewrite !inject_Z_plus, !inject_Z_mult. reflexivity.
Qed.

Lemma exchange_written (frame : list byte) (s : Session) :
  written (ser (fst (exchange frame s))) = written (ser s) ++ [frame].
Proof.
  unfold exchange.
  destruct (decode _) as [[[[az el] ph] pv]|e]; [destruct (ph =? pv)|]; reflexivity.
Qed.

Lemma exchange_match (frame : list byte) (s : Session)
    (b0 b1 b2 b3 b4 b5 b6 b7 b8 b9 b10 b11 : byte) (rest : list byte) :
  incoming (ser s) =
    b0 :: b1 :: b2 :: b3 :: b4 :: b5 :: b6 :: b7 :: b8 :: b9 :: b10 :: b11 :: rest ->
  b5 = b10 ->
  exchange frame s =
    (with_pulse (int_of_byte b5) (exchanged frame s),
     Ok ((inject_Z (int_of_byte b1 * 100 + int_of_byte b2 * 10 + int_of_byte b3)
          + inject_Z (int_of_byte b4) / 10 - 360)%Q,
         (inject_Z (int_of_byte b6 * 100 + int_of_byte b7 * 10 + int_of_byte b8)
          + inject_Z (int_of_byte b9) / 10 - 360)%Q,
         int_of_byte b5)).
Proof.
  intros Hrx <-. unfold exchange. rewrite Hrx. cbn [firstn].
  rewrite decode_frame, Z.eqb_refl. reflexivity.
Qed.

Lemma exchange_mismatch (frame : list byte) (s : Session)
    (b0 b1 b2 b3 b4 b5 b6 b7 b8 b9 b10 b11 : byte) (rest : list byte) :
  incoming (ser s) =
    b0 :: b1 :: b2 :: b3 :: b4 :: b5 :: b6 :: b7 :: b8 :: b9 :: b10 :: b11 :: rest ->
  b5 <> b10 ->
  exchange frame s = (exchanged frame s, Raise AssertionError).
Proof.
  intros Hrx Hne. unfold exchange. rewrite Hrx. cbn [firstn].
  rewrite decode_frame.
  destruct (int_of_byte b5 =? int_of_byte b10) eqn:E; [|reflexivity].
  apply Z.eqb_eq, int_of_byte_inj in E. contradiction.
Qed.

(** ** Decoding a response: [status] and [stop] *)




(** C3.  For every response frame whose PH byte (offset 5) differs from its
    PV byte (offset 10), [status] and [stop] fail at [assert(ph == pv)], the
    consistency error of this code, and return no value. *)
Theorem mismatch_raises (s : Session)
    (b0 b1 b2 b3 b4 b5 b6 b7 b8 b9 b10 b11 : byte) (rest : list byte) :
  incoming (ser s) =
    b0 :: b1 :: b2 :: b3 :: b4 :: b5 :: b6 :: b7 :: b8 :: b9 :: b10 :: b11 :: rest ->
  b5 <> b10 ->
  snd (status s) = Raise AssertionError /\ snd (stop s) = Raise AssertionError.
Proof.
  intros Hrx Hne.
  rewrite status_exchange, stop_exchange.
  rewrite !(exchange_mismatch _ s b0 b1 b2 b3 b4 b5 b6 b7 b8 b9 b10 b11 rest Hrx Hne).
  split; reflexivity.
Qed.

Lemma mismatch_raises_witness :
  snd (status (fresh [x57; x04; x05; x00; x00; x01; x04; x05; x00; x00; x02; x20]))
    = Raise AssertionError /\
  snd (stop (fresh [x57; x04; x05; x00; x00; x01; x04; x05; x00; x00; x02; x20]))
    = Raise AssertionError.
Proof.
  refine (mismatch_raises
            (fresh [x57; x04; x05; x00; x00; x01; x04; x05; x00; x00; x02; x20])
            x57 x04 x05 x00 x00 x01 x04 x05 x00 x00 x02 x20 [] eq_refl _).
  discriminate.
Defined.

(** C9.  When [status] or [stop] fails because PH and PV differ, the cached
    pulse resolution (and the debug flag and the device path) keep their
    values: the assertion comes before the assignment to [self.pulse]. *)
Theorem mismatch_keeps_pulse (s : Session)
    (b0 b1 b2 b3 b4 b5 b6 b7 b8 b9 b10 b11 : byte) (rest : list byte) :
  incoming (ser s) =
    b0 :: b1 :: b2 :: b3 :: b4 :: b5 :: b6 :: b7 :: b8 :: b9 :: b10 :: b11 :: rest ->
  b5 <> b10 ->
  (pulse (fst (status s)) = pulse s /\ debug (fst (status s)) = debug s /\
   dev_path (fst (status s)) = dev_path s) /\
  (pulse (fst (stop s)) = pulse s /\ debug (fst (stop s)) = debug s /\
   dev_path (fst (stop s)) = dev_path s).
Proof.
  intros Hrx Hne.
  rewrite status_exchange, stop_exchange.
  rewrite !(exchange_mismatch _ s b0 b1 b2 b3 b4 b5 b6 b7 b8 b9 b10 b11 rest Hrx Hne).
  repeat split.
Qed.

Lemma mismatch_keeps_pulse_witness :
  (pulse (fst (status (with_pulse 2 (fresh [x57; x04; x05; x00; x00; x01; x04; x05; x00; x00; x03; x20])))) = 2 /\
   debug (fst (status (with_pulse 2 (fresh [x57; x04; x05; x00; x00; x01; x04; x05; x00; x00; x03; x20])))) = false /\
   dev_path (fst (status (with_pulse 2 (fresh [x57; x04; x05; x00; x00; x01; x04; x05; x00; x00; x03; x20])))) = "COM17"%string) /\
  (pulse (fst (stop (with_pulse 2 (fresh [x57; x04; x05; x00; x00; x01; x04; x05; x00; x00; x03; x20])))) = 2 /\
   debug (fst (stop (with_pulse 2 (fresh [x57; x04; x05; x00; x00; x01; x04; x05; x00; x00; x03; x20])))) = false /\
   dev_path (fst (stop (with_pulse 2 (fresh [x57; x04; x05; x00; x00; x01; x04; x05; x00; x00; x03; x20])))) = "COM17"%string).
Proof.
  refine (mismatch_keeps_pulse
            (with_pulse 2 (fresh [x57; x04; x05; x00; x00; x01; x04; x05; x00; x00; x03; x20]))
            x57 x04 x05 x00 x00 x01 x04 x05 x00 x00 x03 x20 [] eq_refl _).
  discriminate.
Defined.




(** C8.  Whatever the object holds (cached pulse resolution, debug flag,
    device path, port) and whatever the controller answers, [stop] writes
    one and the same frame of 13 bytes: selector 0x0f, and zero in the four
    azimuth digits, the four elevation digits and both pulse bytes. *)
Theorem stop_writes_stop_frame (s : Session) :
  written (ser (fst (stop s))) =
  written (ser s) ++ [[x57; x00; x00; x00; x00; x00; x00; x00; x00; x00; x00; x0f; x20]].
Proof.
  rewrite stop_exchange. apply exchange_written.
Qed.

(** ** The decimal digits that [set] takes from the end of a string *)

Lemma int_of_char_digit (d : Z) :
  0 <= d <= 9 -> int_of_char (digit_char d) = Ok d.
Proof.
  intros H.
  assert (Hd : d = 0 \/ d = 1 \/ d = 2 \/ d = 3 \/ d = 4 \/ d = 5 \/ d = 6 \/
               d = 7 \/ d = 8 \/ d = 9) by lia.
  repeat (destruct Hd as [-> | Hd]; [reflexivity|]). subst d. reflexivity.
Qed.

Lemma getitem_from_end {A : Type} (l : list A) (k : Z) (x : A) :
  1 <= k -> nth_error (rev l) (Z.to_nat (k - 1)) = Some x -> getitem l (- k) = Ok x.
Proof.
  intros Hk Hx.
  assert (Hlt : (Z.to_nat (k - 1) < List.length l)%nat).
  { rewrite <- length_rev. apply nth_error_Some. congruence. }
  rewrite nth_error_rev in Hx.
  apply Nat.ltb_lt in Hlt as Hb. rewrite Hb in Hx.
  unfold getitem.
  replace (- k <? 0) with true by (symmetry; apply Z.ltb_lt; lia).
  replace ((0 <=? - k + Z.of_nat (List.length l)) &&
           (- k + Z.of_nat (List.length l) <? Z.of_nat (List.length l))) with true.
  - replace (Z.to_nat (- k + Z.of_nat (List.length l)))
      with (List.length l - S (Z.to_nat (k - 1)))%nat by lia.
    rewrite Hx. reflexivity.
  - symmetry. apply andb_true_iff. split; [apply Z.leb_le | apply Z.ltb_lt]; lia.
Qed.

Lemma digits_lsf_step (fuel : nat) (n : Z) :
  10 <= n -> digits_lsf (S fuel) n = n mod 10 :: digits_lsf fuel (n / 10).
Proof.
  intros H. cbn [digits_lsf].
  replace (n <? 10) with false by (symmetry; apply Z.ltb_ge; lia).
  reflexivity.
Qed.

Lemma digits_lsf_last (fuel : nat) (n : Z) :
  n < 10 -> digits_lsf (S fuel) n = [n mod 10].
Proof.
  intros H. cbn [digits_lsf].
  replace (n <? 10) with true by (symmetry; apply Z.ltb_lt; lia).
  reflexivity.
Qed.

Lemma log2_ge_100 (n : Z) : 100 <= n -> (6 <= Z.to_nat (Z.log2 n))%nat.
Proof.
  intros H. pose proof (Z.log2_le_mono 100 n H) as Hl.
  change (Z.log2 100) with 6 in Hl. lia.
Qed.

(** The padded string of a number from 100 on, read from its end. *)
Lemma rev_padded (n : Z) :
  100 <= n ->
  exists tl : list ascii,
    rev ("0"%char :: str n) =
    digit_char (n mod 10) :: digit_char (n / 10 mod 10) ::
    digit_char (n / 100 mod 10) :: digit_char (n / 1000 mod 10) :: tl.
Proof.
  intros H. unfold str, str_of_nat.
  replace (n <? 0) with false by (symmetry; apply Z.ltb_ge; lia).
  cbn [rev]. rewrite <- map_rev, rev_involutive.
  pose proof (log2_ge_100 n H) as Hf.
  destruct (Z.to_nat (Z.log2 n)) as [|[|[|f]]]; try lia.
  assert (H10 : n / 10 / 10 = n / 100) by (rewrite Z.div_div by lia; reflexivity).
  assert (H100 : n / 100 / 10 = n / 1000) by (rewrite Z.div_div by lia; reflexivity).
  assert (Hn1 : 10 <= n / 10) by (apply Z.div_le_lower_bound; lia).
  assert (Hn2 : 1 <= n / 100) by (apply Z.div_le_lower_bound; lia).
  rewrite (digits_lsf_step _ n) by lia.
  rewrite (digits_lsf_step _ (n / 10)) by lia.
  rewrite H10.
  destruct (Z_lt_le_dec (n / 100) 10) as [Hlt | Hge].
  - rewrite digits_lsf_last by lia. cbn [map app].
    assert (Hz : n / 1000 = 0).
    { rewrite <- H100. apply Z.div_small. lia. }
    rewrite Hz. exists []. reflexivity.
  - rewrite digits_lsf_step by lia. rewrite H100.
    destruct f as [|f]; [lia|].
    cbn [digits_lsf map app]. eexists. reflexivity.
Qed.

Lemma padded_length (n : Z) : 100 <= n -> (4 <= List.length ("0"%char :: str n))%nat.
Proof.
  intros H. destruct (rev_padded n H) as [tl Htl].
  rewrite <- length_rev, Htl. cbn [List.length]. lia.
Qed.

Lemma digit_at_padded (n : Z) :
  100 <= n ->
  digit_at ("0"%char :: str n) (-4) = Ok (n / 1000 mod 10) /\
  digit_at ("0"%char :: str n) (-3) = Ok (n / 100 mod 10) /\
  digit_at ("0"%char :: str n) (-2) = Ok (n / 10 mod 10) /\
  digit_at ("0"%char :: str n) (-1) = Ok (n mod 10).
Proof.
  intros H. destruct (rev_padded n H) as [tl Htl].
  unfold digit_at.
  rewrite (getitem_from_end _ 4 (digit_char (n / 1000 mod 10)))
    by (try lia; rewrite Htl; reflexivity).
  rewrite (getitem_from_end _ 3 (digit_char (n / 100 mod 10)))
    by (try lia; rewrite Htl; reflexivity).
  rewrite (getitem_from_end _ 2 (digit_char (n / 10 mod 10)))
    by (try lia; rewrite Htl; reflexivity).
  rewrite (getitem_from_end _ 1 (digit_char (n mod 10)))
    by (try lia; rewrite Htl; reflexivity).
  cbn [bind].
  rewrite !int_of_char_digit
    by (match goal with
        | |- 0 <= ?a mod 10 <= 9 =>
            pose proof (Z.mod_pos_bound a 10 ltac:(lia)); lia
        end).
  repeat split.
Qed.

(** ** The number [set] renders: [int(self.pulse * (float(v) + 360))] *)

Lemma int_of_float_floor (x : Q) : (0 <= x)%Q -> int_of_float x = Qfloor x.
Proof.
  intros H. unfold int_of_float.
  apply Qle_bool_iff in H. rewrite H. reflexivity.
Qed.

Lemma scaled_lower (p : Z) (v : Q) :
  1 <= p -> (-180 <= v)%Q -> (180 <= inject_Z p * (v + 360))%Q.
Proof.
  intros Hp Hv.
  setoid_replace (180 : Q) with (1 * 180)%Q by reflexivity.
  apply Qmult_le_compat_nonneg.
  - split; [discriminate|]. change 1%Q with (inject_Z 1). rewrite <- Zle_Qle. exact Hp.
  - split; [discriminate|]. lra.
Qed.

Lemma int_of_float_raw (p : Z) (v : Q) :
  1 <= p -> (-180 <= v)%Q ->
  int_of_float (inject_Z p * (v + 360)) = raw p v /\ 180 <= raw p v.
Proof.
  intros Hp Hv. pose proof (scaled_lower p v Hp Hv) as H.
  split.
  - apply int_of_float_floor. lra.
  - unfold raw. rewrite <- (Qfloor_Z 180). apply Qfloor_resp_le, H.
Qed.

Lemma az_in_range_lower (azi : Q) : az_in_range azi -> (-180 <= azi)%Q.
Proof. intros [H _]. exact H. Qed.

Lemma el_in_range_lower (eli : Q) : el_in_range eli -> (-180 <= eli)%Q.
Proof. intros [H _]. unfold min_el in H. lra. Qed.

Lemma digits_value (n : Z) :
  n / 1000 mod 10 * 1000 + n / 100 mod 10 * 100 + n / 10 mod 10 * 10 + n mod 10
  = n mod 10000.
Proof.
  Z.to_euclidean_division_equations. lia.
Qed.

(** ** [bytes] of a list of small integers *)

Lemma bytes_cons (x : Z) (l : list Z) :
  0 <= x <= 255 ->
  exists b : byte,
    int_of_byte b = x /\
    bytes (x :: l) = bind (bytes l) (fun bs => Ok (b :: bs)).
Proof.
  intros Hx. cbn [bytes].
  replace ((0 <=? x) && (x <? 256)) with true
    by (symmetry; apply andb_true_iff; split; [apply Z.leb_le | apply Z.ltb_lt]; lia).
  pose proof (Byte.to_of_N_option_map (Z.to_N x)) as Hopt.
  replace (Z.to_N x <=? 255)%N with true in Hopt by (symmetry; apply N.leb_le; lia).
  destruct (Byte.of_N (Z.to_N x)) as [b|] eqn:Eb; [|discriminate].
  exists b. split; [|reflexivity].
  apply Byte.to_of_N in Eb. unfold int_of_byte. rewrite Eb. lia.
Qed.

Lemma bytes_total (l : list Z) :
  Forall (fun x => 0 <= x <= 255) l ->
  exists bs : list byte, bytes l = Ok bs /\ map int_of_byte bs = l.
Proof.
  induction 1 as [|x l Hx _ IH].
  - exists []. split; reflexivity.
  - destruct IH as [bs [Hbs Hmap]].
    destruct (bytes_cons x l Hx) as [b [Hb Hcons]].
    exists (b :: bs). rewrite Hcons, Hbs. cbn [bind map].
    rewrite Hb, Hmap. split; reflexivity.
Qed.

(** ** [set]: the assertions, then the frame *)

Lemma set_checked (s : Session) (azi eli : Q) :
  az_in_range azi -> el_in_range eli ->
  set azi eli s =
    match set_cmd (pulse s) azi eli with
    | Ok cmd =>
        match bytes cmd with
        | Ok packet => ser_write packet s
        | Raise e => (s, Raise e)
        end
    | Raise e => (s, Raise e)
    end.
Proof.
  intros [Ha1 Ha2] [He1 He2].
  apply Qle_bool_iff in Ha1, Ha2, He1, He2.
  unfold set, mbind, lift, assert, get_pulse.
  rewrite Ha1, Ha2, He1, He2.
  destruct (set_cmd (pulse s) azi eli) as [cmd|e]; [|reflexivity].
  destruct (bytes cmd) as [packet|e]; reflexivity.
Qed.

Lemma set_rejected (s : Session) (azi eli : Q) :
  ~ az_in_range azi \/ ~ el_in_range eli ->
  set azi eli s = (s, Raise AssertionError).
Proof.
  intros H. unfold set, mbind, lift, assert.
  destruct (Qle_bool azi max_az) eqn:Ea2; [|reflexivity].
  destruct (Qle_bool min_az azi) eqn:Ea1; [|reflexivity].
  destruct (Qle_bool eli max_el) eqn:Ee2; [|reflexivity].
  destruct (Qle_bool min_el eli) eqn:Ee1; [|reflexivity].
  apply Qle_bool_iff in Ea1, Ea2, Ee1, Ee2.
  exfalso. destruct H as [H | H]; apply H; split; assumption.
Qed.

Lemma set_cmd_digits (p : Z) (azi eli : Q) :
  1 <= p -> (-180 <= azi)%Q -> (-180 <= eli)%Q ->
  set_cmd p azi eli =
  Ok [0x57;
      raw p azi / 1000 mod 10; raw p azi / 100 mod 10;
      raw p azi / 10 mod 10; raw p azi mod 10;
      p;
      raw p eli / 1000 mod 10; raw p eli / 100 mod 10;
      raw p eli / 10 mod 10; raw p eli mod 10;
      p; 0x2f; 0x20].
Proof.
  intros Hp Ha He. unfold set_cmd, padded.
  destruct (int_of_float_raw p azi Hp Ha) as [-> HA].
  destruct (int_of_float_raw p eli Hp He) as [-> HE].
  destruct (digit_at_padded (raw p azi)) as [-> [-> [-> ->]]]; [lia|].
  destruct (digit_at_padded (raw p eli)) as [-> [-> [-> ->]]]; [lia|].
  reflexivity.
Qed.

Lemma mod10_range (n : Z) : 0 <= n mod 10 <= 9.
Proof. pose proof (Z.mod_pos_bound n 10 ltac:(lia)). lia. Qed.

Lemma set_cmd_zero (azi eli : Q) : set_cmd 0 azi eli = Raise IndexError.
Proof.
  destruct azi as [an ad], eli as [en ed]. reflexivity.
Qed.

Lemma getitem_exn {A : Type} (l : list A) (i : Z) (e : exn) :
  getitem l i = Raise e -> e = IndexError.
Proof.
  unfold getitem.
  destruct ((0 <=? _) && _); [destruct (nth_error _ _)|]; congruence.
Qed.

Lemma digit_at_exn (s : list ascii) (i : Z) (e : exn) :
  digit_at s i = Raise e -> e <> AssertionError.
Proof.
  unfold digit_at. destruct (getitem s i) as [c|e'] eqn:E; cbn [bind].
  - unfold int_of_char. destruct (_ && _); congruence.
  - apply getitem_exn in E. congruence.
Qed.

Lemma set_cmd_exn (p : Z) (azi eli : Q) (e : exn) :
  set_cmd p azi eli = Raise e -> e <> AssertionError.
Proof.
  unfold set_cmd.
  repeat match goal with
    | |- bind (digit_at ?s ?i) _ = _ -> _ =>
        let E := fresh "E" in
        destruct (digit_at s i) eqn:E; cbn [bind];
        [| intros [= <-]; exact (digit_at_exn _ _ _ E)]
    end.
  discriminate.
Qed.

Lemma bytes_exn (l : list Z) (e : exn) : bytes l = Raise e -> e = ValueError.
Proof.
  induction l as [|x l IH]; cbn [bytes]; [discriminate|].
  destruct (_ && _); [|congruence].
  destruct (Byte.of_N _); [|congruence].
  destruct (bytes l); cbn [bind]; [discriminate|].
  intros [= <-]. apply IH. reflexivity.
Qed.

Lemma set_writes (s : Session) (azi eli : Q) :
  1 <= pulse s <= 255 -> az_in_range azi -> el_in_range eli ->
  exists frame : list byte,
    set azi eli s = ser_write frame s /\
    map int_of_byte frame =
      [0x57;
       raw (pulse s) azi / 1000 mod 10; raw (pulse s) azi / 100 mod 10;
       raw (pulse s) azi / 10 mod 10; raw (pulse s) azi mod 10;
       pulse s;
       raw (pulse s) eli / 1000 mod 10; raw (pulse s) eli / 100 mod 10;
       raw (pulse s) eli / 10 mod 10; raw (pulse s) eli mod 10;
       pulse s; 0x2f; 0x20].
Proof.
  intros Hp Ha He.
  pose proof (set_cmd_digits (pulse s) azi eli ltac:(lia)
                (az_in_range_lower azi Ha) (el_in_range_lower eli He)) as Hcmd.
  destruct (bytes_total
              [0x57;
               raw (pulse s) azi / 1000 mod 10; raw (pulse s) azi / 100 mod 10;
               raw (pulse s) azi / 10 mod 10; raw (pulse s) azi mod 10;
               pulse s;
               raw (pulse s) eli / 1000 mod 10; raw (pulse s) eli / 100 mod 10;
               raw (pulse s) eli / 10 mod 10; raw (pulse s) eli mod 10;
               pulse s; 0x2f; 0x20]) as [frame [Hframe Hmap]].
  { repeat (apply Forall_cons;
            [cbv beta;
             try match goal with
                 | |- 0 <= ?a mod 10 <= 255 => pose proof (mod10_range a)
                 end; lia|]).
    apply Forall_nil. }
  exists frame. split; [|exact Hmap].
  rewrite (set_checked s azi eli Ha He), Hcmd, Hframe. reflexivity.
Qed.

Ltac in_range := split; apply Qle_bool_iff; reflexivity.

(** ** Encoding a target: [set] *)



(** C10.  For every pulse resolution p >= 1, azimuth in [-180, 360] and
    elevation in [0, 180], the padded string "0" + str(int(p * (v + 360)))
    of [set] has at least 4 characters, and each of the subscripts -4, -3,
    -2 and -1 gives a character whose [int] is a digit from 0 to 9. *)
Theorem padded_digits (p : Z) (azi eli : Q) :
  1 <= p -> az_in_range azi -> el_in_range eli ->
  (4 <= List.length (padded p azi))%nat /\
  (4 <= List.length (padded p eli))%nat /\
  forall k : Z, -4 <= k <= -1 ->
    (exists d : Z, digit_at (padded p azi) k = Ok d /\ 0 <= d <= 9) /\
    (exists d : Z, digit_at (padded p eli) k = Ok d /\ 0 <= d <= 9).
Proof.
  intros Hp Ha He.
  apply az_in_range_lower in Ha. apply el_in_range_lower in He.
  destruct (int_of_float_raw p azi Hp Ha) as [EA HA].
  destruct (int_of_float_raw p eli Hp He) as [EE HE].
  unfold padded. rewrite EA, EE.
  split; [apply padded_length; lia|].
  split; [apply padded_length; lia|].
  intros k Hk.
  destruct (digit_at_padded (raw p azi)) as (A4 & A3 & A2 & A1); [lia|].
  destruct (digit_at_padded (raw p eli)) as (E4 & E3 & E2 & E1); [lia|].
  assert (Hcases : k = -4 \/ k = -3 \/ k = -2 \/ k = -1) by lia.
  destruct Hcases as [-> | [-> | [-> | ->]]];
    (split; eexists; (split; [eassumption | apply mod10_range])).
Qed.

Lemma padded_digits_witness :
  (4 <= List.length (padded 1 (-180)))%nat /\
  (4 <= List.length (padded 1 0))%nat /\
  forall k : Z, -4 <= k <= -1 ->
    (exists d : Z, digit_at (padded 1 (-180)) k = Ok d /\ 0 <= d <= 9) /\
    (exists d : Z, digit_at (padded 1 0) k = Ok d /\ 0 <= d <= 9).
Proof.
  apply (padded_digits 1 (-180) 0); [lia | in_range | in_range].
Defined.

(** C6, as amended.  With a cached pulse resolution of 0, [set] on a target
    in the domain multiplies by zero, gets the two-character string "00" and
    fails at its subscript -4 with an [IndexError]; this is before any
    write, and the object is as it was.  No check of the pulse resolution
    and no error of its own exist. *)
Theorem set_pulse_zero (s : Session) (azi eli : Q) :
  pulse s = 0 -> az_in_range azi -> el_in_range eli ->
  padded (pulse s) azi = ["0"; "0"]%char /\
  set azi eli s = (s, Raise IndexError).
Proof.
  intros Hp Ha He. split.
  - rewrite Hp. destruct azi as [an ad]. reflexivity.
  - rewrite (set_checked s azi eli Ha He), Hp, set_cmd_zero. reflexivity.
Qed.

Lemma set_pulse_zero_witness :
  padded 0 90 = ["0"; "0"]%char /\
  set 90 90 (fresh []) = (fresh [], Raise IndexError).
Proof.
  apply (set_pulse_zero (fresh []) 90 90); [reflexivity | in_range | in_range].
Defined.

(** C6 as it is worded fails: at pulse resolution 0, [set(90, 90)] does
    multiply by zero (the string of the product is "00"), and what it
    raises is the [IndexError] of a string subscript, not an error that
    names the missing pulse resolution. *)
Lemma set_pulse_zero_index_error :
  pulse (fresh []) = 0 /\
  int_of_float (inject_Z (pulse (fresh [])) * (90 + 360)) = 0 /\
  getitem (padded (pulse (fresh [])) 90) (-4) = Raise IndexError /\
  snd (set 90 90 (fresh [])) = Raise IndexError.
Proof. vm_compute. repeat split. Qed.

(** C7.  With a cached pulse resolution of 1, [set(90.0, 90.0)] writes
    exactly the 13-byte frame 57 00 04 05 00 01 00 04 05 00 01 2f 20. *)
Theorem set_90_90 (s : Session) :
  pulse s = 1 ->
  snd (set 90 90 s) = Ok tt /\
  written (ser (fst (set 90 90 s))) =
  written (ser s) ++ [[x57; x00; x04; x05; x00; x01; x00; x04; x05; x00; x01; x2f; x20]].
Proof.
  intros Hp.
  rewrite (set_checked s 90 90) by in_range.
  rewrite Hp.
  change (set_cmd 1 90 90)
    with (@Ok (list Z) [0x57; 0; 4; 5; 0; 1; 0; 4; 5; 0; 1; 0x2f; 0x20]).
  change (bytes [0x57; 0; 4; 5; 0; 1; 0; 4; 5; 0; 1; 0x2f; 0x20])
    with (@Ok (list byte) [x57; x00; x04; x05; x00; x01; x00; x04; x05; x00; x01; x2f; x20]).
  split; reflexivity.
Qed.

Lemma set_90_90_witness :
  snd (set 90 90 (with_pulse 1 (fresh []))) = Ok tt /\
  written (ser (fst (set 90 90 (with_pulse 1 (fresh []))))) =
  [] ++ [[x57; x00; x04; x05; x00; x01; x00; x04; x05; x00; x01; x2f; x20]].
Proof.
  apply (set_90_90 (with_pulse 1 (fresh []))). reflexivity.
Defined.

(** C4.  A call of [set] with the azimuth outside [-180, 360] or the
    elevation outside [0, 180] fails at an assertion, the range error of
    this code, with nothing written and the object as it was; on the
    boundary values (azimuth -180 or 360, elevation 0 or 180) no assertion
    fails, and with a pulse resolution from 1 to 255 the call completes. *)
Theorem set_range_check (s : Session) (azi eli : Q) :
  (~ az_in_range azi \/ ~ el_in_range eli ->
   set azi eli s = (s, Raise AssertionError) /\
   written (ser (fst (set azi eli s))) = written (ser s)) /\
  ((azi == -180 \/ azi == 360)%Q -> (eli == 0 \/ eli == 180)%Q ->
   snd (set azi eli s) <> Raise AssertionError /\
   (1 <= pulse s <= 255 -> snd (set azi eli s) = Ok tt)).
Proof.
  split.
  - intros H. rewrite (set_rejected s azi eli H). split; reflexivity.
  - intros Ha He.
    assert (Haz : az_in_range azi).
    { unfold az_in_range, min_az, max_az. destruct Ha as [-> | ->]; split; discriminate. }
    assert (Hel : el_in_range eli).
    { unfold el_in_range, min_el, max_el. destruct He as [-> | ->]; split; discriminate. }
    split.
    + rewrite (set_checked s azi eli Haz Hel).
      destruct (set_cmd (pulse s) azi eli) as [cmd|e] eqn:Ecmd.
      * destruct (bytes cmd) as [packet|e] eqn:Eb; cbn [snd ser_write]; [discriminate|].
        apply bytes_exn in Eb. congruence.
      * cbn [snd]. apply set_cmd_exn in Ecmd. congruence.
    + intros Hp.
      destruct (set_writes s azi eli Hp Haz Hel) as [frame [Hset _]].
      rewrite Hset. reflexivity.
Qed.

Lemma set_range_check_witness :
  (set 400 90 (with_pulse 1 (fresh [])) = (with_pulse 1 (fresh []), Raise AssertionError) /\
   written (ser (fst (set 400 90 (with_pulse 1 (fresh []))))) = []) /\
  (snd (set 360 180 (with_pulse 1 (fresh []))) <> Raise AssertionError /\
   snd (set 360 180 (with_pulse 1 (fresh []))) = Ok tt).
Proof.
  split.
  - apply (proj1 (set_range_check (with_pulse 1 (fresh [])) 400 90)).
    left. intros [_ H]. apply Qle_bool_iff in H. discriminate.
  - destruct (proj2 (set_range_check (with_pulse 1 (fresh [])) 360 180)) as [H1 H2].
    + right. reflexivity.
    + right. reflexivity.
    + split; [exact H1 | apply H2; cbn; lia].
Defined.

(** ** More on [set]: what a call can and cannot do *)

Lemma bytes_inv (l : list Z) (bs : list byte) :
  bytes l = Ok bs ->
  map int_of_byte bs = l /\ Forall (fun x => 0 <= x <= 255) l.
Proof.
  revert bs. induction l as [|x l IH]; intros bs; cbn [bytes].
  - intros [= <-]. split; [reflexivity | constructor].
  - destruct ((0 <=? x) && (x <? 256)) eqn:Ex; [|discriminate].
    apply andb_true_iff in Ex. destruct Ex as [E1 E2].
    apply Z.leb_le in E1. apply Z.ltb_lt in E2.
    destruct (Byte.of_N (Z.to_N x)) as [b|] eqn:Eb; [|discriminate].
    destruct (bytes l) as [bs'|e]; cbn [bind]; [|discriminate].
    intros [= <-]. destruct (IH bs' eq_refl) as [Hmap Hall].
    apply Byte.to_of_N in Eb.
    split.
    + cbn [map]. rewrite Hmap. unfold int_of_byte. rewrite Eb.
      rewrite Z2N.id by lia. reflexivity.
    + constructor; [lia | exact Hall].
Qed.

Lemma int_of_char_range (c : ascii) (d : Z) :
  int_of_char c = Ok d -> 0 <= d <= 9.
Proof.
  unfold int_of_char.
  destruct ((48 <=? _) && (_ <=? 57)) eqn:E; [|discriminate].
  apply andb_true_iff in E. destruct E as [E1 E2].
  apply Z.leb_le in E1. apply Z.leb_le in E2.
  intros [= <-]. lia.
Qed.

Lemma digit_at_range (s : list ascii) (i d : Z) :
  digit_at s i = Ok d -> 0 <= d <= 9.
Proof.
  unfold digit_at. destruct (getitem s i) as [c|e]; cbn [bind]; [|discriminate].
  apply int_of_char_range.
Qed.

Lemma set_cmd_inv (p : Z) (azi eli : Q) (cmd : list Z) :
  set_cmd p azi eli = Ok cmd ->
  exists a1 a2 a3 a4 e1 e2 e3 e4 : Z,
    cmd = [0x57; a1; a2; a3; a4; p; e1; e2; e3; e4; p; 0x2f; 0x20] /\
    Forall (fun d => 0 <= d <= 9) [a1; a2; a3; a4; e1; e2; e3; e4].
Proof.
  unfold set_cmd.
  repeat match goal with
    | |- bind (digit_at ?s ?i) _ = _ -> _ =>
        let E := fresh "E" in
        destruct (digit_at s i) eqn:E; cbn [bind];
        [apply digit_at_range in E | discriminate]
    end.
  intros [= <-]. do 8 eexists. split; [reflexivity|].
  repeat (constructor; [assumption|]). constructor.
Qed.

(** What [set] does in terms of its assertions, its list and its frame. *)
Lemma set_unfold (s : Session) (azi eli : Q) :
  set azi eli s =
    if Qle_bool azi max_az && Qle_bool min_az azi &&
       Qle_bool eli max_el && Qle_bool min_el eli
    then match set_cmd (pulse s) azi eli with
         | Ok cmd =>
             match bytes cmd with
             | Ok packet => ser_write packet s
             | Raise e => (s, Raise e)
             end
         | Raise e => (s, Raise e)
         end
    else (s, Raise AssertionError).
Proof.
  unfold set, mbind, lift, assert, get_pulse.
  destruct (Qle_bool azi max_az); [|reflexivity].
  destruct (Qle_bool min_az azi); [|reflexivity].
  destruct (Qle_bool eli max_el); [|reflexivity].
  destruct (Qle_bool min_el eli); [|reflexivity].
  cbn [andb].
  destruct (set_cmd (pulse s) azi eli) as [cmd|e]; [|reflexivity].
  destruct (bytes cmd) as [packet|e]; reflexivity.
Qed.

Lemma range_checks (azi eli : Q) :
  Qle_bool azi max_az && Qle_bool min_az azi &&
  Qle_bool eli max_el && Qle_bool min_el eli = true
  <-> az_in_range azi /\ el_in_range eli.
Proof.
  unfold az_in_range, el_in_range.
  rewrite !andb_true_iff, !Qle_bool_iff. tauto.
Qed.



(** X2.  A call of [set] that returns has passed the range checks with a
    cached pulse resolution from 1 to 255, and has appended one packet of
    13 bytes to the port: 0x57, four digits from 0 to 9, the pulse
    resolution, four digits, the pulse resolution again, 0x2f and 0x20.
    It has read nothing and kept the cached pulse resolution. *)
Theorem set_success_frame (s : Session) (azi eli : Q) :
  snd (set azi eli s) = Ok tt ->
  az_in_range azi /\ el_in_range eli /\ 1 <= pulse s <= 255 /\
  exists (frame : list byte) (a1 a2 a3 a4 e1 e2 e3 e4 : Z),
    fst (set azi eli s) =
      mkSession (pulse s) (debug s) (dev_path s)
        (mkSerial (written (ser s) ++ [frame]) (incoming (ser s))) /\
    List.length frame = 13%nat /\
    map int_of_byte frame =
      [0x57; a1; a2; a3; a4; pulse s; e1; e2; e3; e4; pulse s; 0x2f; 0x20] /\
    Forall (fun d => 0 <= d <= 9) [a1; a2; a3; a4; e1; e2; e3; e4].
Proof.
  rewrite set_unfold.
  destruct (_ && _) eqn:Hr; [|discriminate].
  apply range_checks in Hr. destruct Hr as [Ha He].
  destruct (set_cmd (pulse s) azi eli) as [cmd|e'] eqn:Ecmd; [|discriminate].
  destruct (bytes cmd) as [frame|e'] eqn:Eb; [|discriminate].
  intros _.
  destruct (set_cmd_inv _ _ _ _ Ecmd)
    as (a1 & a2 & a3 & a4 & e1 & e2 & e3 & e4 & -> & Hdig).
  destruct (bytes_inv _ _ Eb) as [Hmap Hall].
  assert (Hp : 0 <= pulse s <= 255).
  { apply (proj1 (Forall_forall _ _) Hall). do 5 right. left. reflexivity. }
  assert (Hnz : pulse s <> 0).
  { intros Hz. rewrite Hz, set_cmd_zero in Ecmd. discriminate. }
  split; [exact Ha|]. split; [exact He|]. split; [lia|].
  exists frame, a1, a2, a3, a4, e1, e2, e3, e4.
  split; [reflexivity|].
  split; [|split; [exact Hmap | exact Hdig]].
  rewrite <- (length_map int_of_byte), Hmap. reflexivity.
Qed.

Lemma set_success_frame_witness :
  az_in_range 90 /\ el_in_range 90 /\ 1 <= 1 <= 255 /\
  exists (frame : list byte) (a1 a2 a3 a4 e1 e2 e3 e4 : Z),
    fst (set 90 90 (with_pulse 1 (fresh []))) =
      mkSession 1 false "COM17" (mkSerial ([] ++ [frame]) []) /\
    List.length frame = 13%nat /\
    map int_of_byte frame = [0x57; a1; a2; a3; a4; 1; e1; e2; e3; e4; 1; 0x2f; 0x20] /\
    Forall (fun d => 0 <= d <= 9) [a1; a2; a3; a4; e1; e2; e3; e4].
Proof.
  apply (set_success_frame (with_pulse 1 (fresh [])) 90 90). reflexivity.
Defined.

(** X3.  With a cached pulse resolution that is a byte, the outcome of
    [set] is decided by its arguments and the pulse resolution alone: an
    [AssertionError] exactly when a target is out of range, an [IndexError]
    exactly when the targets are in range and the pulse resolution is 0,
    a return exactly when they are in range and it is at least 1; a
    [ValueError] never. *)
Theorem set_outcome (s : Session) (azi eli : Q) :
  0 <= pulse s <= 255 ->
  (snd (set azi eli s) = Raise AssertionError
     <-> ~ (az_in_range azi /\ el_in_range eli)) /\
  (snd (set azi eli s) = Raise IndexError
     <-> az_in_range azi /\ el_in_range eli /\ pulse s = 0) /\
  (snd (set azi eli s) = Ok tt
     <-> az_in_range azi /\ el_in_range eli /\ 1 <= pulse s) /\
  snd (set azi eli s) <> Raise ValueError.
Proof.
  intros Hp. rewrite set_unfold.
  destruct (_ && _) eqn:Hr.
  - apply range_checks in Hr. destruct Hr as [Ha He].
    destruct (Z.eq_dec (pulse s) 0) as [Hz | Hnz].
    + rewrite Hz, set_cmd_zero. cbn [snd].
      split; [split; [discriminate | tauto]|].
      split; [split; [tauto | reflexivity]|].
      split; [split; [discriminate | intros [_ [_ H]]; lia]|].
      discriminate.
    + destruct (set_writes s azi eli ltac:(lia) Ha He) as [frame [Hset _]].
      rewrite (set_checked s azi eli Ha He) in Hset. rewrite Hset.
      cbn [snd ser_write].
      split; [split; [discriminate | tauto]|].
      split; [split; [discriminate | tauto]|].
      split; [split; [intros _; split; [exact Ha | split; [exact He | lia]] | reflexivity]|].
      discriminate.
  - assert (Hn : ~ (az_in_range azi /\ el_in_range eli)).
    { intros H. apply range_checks in H. congruence. }
    cbn [snd].
    split; [split; [intros _; exact Hn | reflexivity]|].
    split; [split; [discriminate | tauto]|].
    split; [split; [discriminate | tauto]|].
    discriminate.
Qed.

Lemma set_outcome_witness :
  (snd (set 400 90 (fresh [])) = Raise AssertionError
     <-> ~ (az_in_range 400 /\ el_in_range 90)) /\
  (snd (set 400 90 (fresh [])) = Raise IndexError
     <-> az_in_range 400 /\ el_in_range 90 /\ 0 = 0) /\
  (snd (set 400 90 (fresh [])) = Ok tt
     <-> az_in_range 400 /\ el_in_range 90 /\ 1 <= 0) /\
  snd (set 400 90 (fresh [])) <> Raise ValueError.
Proof.
  apply (set_outcome (fresh []) 400 90). cbn. lia.
Defined.

(** ** More on [status] and [stop]: the line and the outcome *)

Lemma decode_ok_pulse (l : list byte) (az el : Q) (ph pv : Z) :
  decode l = Ok (az, el, ph, pv) -> 0 <= ph <= 255.
Proof.
  unfold decode.
  repeat match goal with
    | |- context [getitem ?l ?i] =>
        destruct (getitem l i); cbn [bind]; [|discriminate]
    end.
  intros [= _ _ <- _]. apply int_of_byte_range.
Qed.

Lemma exchange_ok (frame : list byte) (s : Session) (az el : Q) (p : Z) :
  snd (exchange frame s) = Ok (az, el, p) ->
  fst (exchange frame s) = with_pulse p (exchanged frame s) /\ 0 <= p <= 255.
Proof.
  unfold exchange.
  destruct (decode _) as [[[[az' el'] ph] pv]|e] eqn:E; [|discriminate].
  destruct (ph =? pv); [|discriminate].
  cbn [fst snd]. intros [= _ _ <-].
  split; [reflexivity | exact (decode_ok_pulse _ _ _ _ _ E)].
Qed.

Lemma exchange_line (frame : list byte) (s : Session) :
  written (ser (fst (exchange frame s))) = written (ser s) ++ [frame] /\
  incoming (ser (fst (exchange frame s))) = skipn 12 (incoming (ser s)) /\
  debug (fst (exchange frame s)) = debug s /\
  dev_path (fst (exchange frame s)) = dev_path s.
Proof.
  unfold exchange.
  destruct (decode _) as [[[[az el] ph] pv]|e]; [destruct (ph =? pv)|];
    repeat split.
Qed.

Lemma exchange_outcome (frame : list byte) (s : Session) :
  let rx := incoming (ser s) in
  (snd (exchange frame s) = Raise IndexError <-> (List.length rx <= 10)%nat) /\
  (snd (exchange frame s) = Raise AssertionError
     <-> (11 <= List.length rx)%nat /\ nth 5 rx x00 <> nth 10 rx x00) /\
  ((exists r, snd (exchange frame s) = Ok r)
     <-> (11 <= List.length rx)%nat /\ nth 5 rx x00 = nth 10 rx x00) /\
  snd (exchange frame s) <> Raise ValueError.
Proof.
  cbv zeta. unfold exchange.
  destruct (le_lt_dec (List.length (incoming (ser s))) 10) as [Hs | Hl].
  - rewrite decode_short by (rewrite length_firstn; lia). cbn [snd].
    split; [split; [intros _; exact Hs | reflexivity]|].
    split; [split; [discriminate | intros [H _]; lia]|].
    split; [split; [intros [r Hr]; discriminate | intros [H _]; lia]|].
    discriminate.
  - destruct (incoming (ser s))
      as [|b0 [|b1 [|b2 [|b3 [|b4 [|b5 [|b6 [|b7 [|b8 [|b9 [|b10 tl]]]]]]]]]]];
      cbn [List.length] in Hl; try lia.
    cbn [firstn]. rewrite decode_frame. cbn [nth List.length].
    destruct (int_of_byte b5 =? int_of_byte b10) eqn:E; cbn [snd].
    + apply Z.eqb_eq, int_of_byte_inj in E.
      split; [split; [discriminate | lia]|].
      split; [split; [discriminate | intros [_ H]; contradiction]|].
      split; [split; [intros _; split; [lia | exact E] | intros _; eexists; reflexivity]|].
      discriminate.
    + assert (Hne : b5 <> b10).
      { intros ->. rewrite Z.eqb_refl in E. discriminate. }
      split; [split; [discriminate | lia]|].
      split; [split; [intros _; split; [lia | exact Hne] | reflexivity]|].
      split; [split; [intros [r Hr]; discriminate | intros [_ H]; contradiction]|].
      discriminate.
Qed.

(** X4.  [stop] answers like [status]: on the same object both give the
    same result or the same exception, leave the same cached pulse
    resolution and take the same bytes from the line; they differ by the
    command frame they write. *)
Theorem stop_answers_like_status (s : Session) :
  snd (stop s) = snd (status s) /\
  pulse (fst (stop s)) = pulse (fst (status s)) /\
  incoming (ser (fst (stop s))) = incoming (ser (fst (status s))) /\
  written (ser (fst (status s))) = written (ser s) ++ [status_frame] /\
  written (ser (fst (stop s))) = written (ser s) ++ [stop_frame].
Proof.
  rewrite status_exchange, stop_exchange. unfold exchange.
  destruct (decode _) as [[[[az el] ph] pv]|e]; [destruct (ph =? pv)|];
    repeat split.
Qed.

(** X5.  Whatever the controller answers, and also when the call raises,
    [status] has written its command frame (selector 0x1f) and taken the
    first 12 bytes of the line, fewer if fewer were there; the debug flag
    and the device path are as before.  The same holds for what [stop]
    takes and keeps. *)
Theorem status_line (s : Session) :
  (written (ser (fst (status s))) =
     written (ser s) ++ [[x57; x00; x00; x00; x00; x00; x00; x00; x00; x00; x00; x1f; x20]] /\
   incoming (ser (fst (status s))) = skipn 12 (incoming (ser s)) /\
   debug (fst (status s)) = debug s /\
   dev_path (fst (status s)) = dev_path s) /\
  (incoming (ser (fst (stop s))) = skipn 12 (incoming (ser s)) /\
   debug (fst (stop s)) = debug s /\
   dev_path (fst (stop s)) = dev_path s).
Proof.
  rewrite status_exchange, stop_exchange.
  destruct (exchange_line status_frame s) as (H1 & H2 & H3 & H4).
  destruct (exchange_line stop_frame s) as (_ & G2 & G3 & G4).
  repeat split; assumption.
Qed.


(** X7.  When [status] or [stop] returns (azimuth, elevation, p), the
    cached pulse resolution is p afterwards, and p is a byte: from 0 to
    255. *)
Theorem returned_pulse_is_cached (s : Session) (az el : Q) (p : Z) :
  (snd (status s) = Ok (az, el, p) ->
   pulse (fst (status s)) = p /\ 0 <= p <= 255) /\
  (snd (stop s) = Ok (az, el, p) ->
   pulse (fst (stop s)) = p /\ 0 <= p <= 255).
Proof.
  rewrite status_exchange, stop_exchange.
  split; intros H; apply exchange_ok in H; destruct H as [-> Hp];
    (split; [reflexivity | exact Hp]).
Qed.

Lemma returned_pulse_is_cached_witness :
  pulse (fst (status (fresh [x57; x04; x05; x00; x00; x02; x04; x05; x00; x00; x02; x20]))) = 2
  /\ 0 <= 2 <= 255.
Proof.
  apply (proj1 (returned_pulse_is_cached
                  (fresh [x57; x04; x05; x00; x00; x02; x04; x05; x00; x00; x02; x20])
                  (inject_Z (4 * 100 + 5 * 10 + 0) + inject_Z 0 / 10 - 360)%Q
                  (inject_Z (4 * 100 + 5 * 10 + 0) + inject_Z 0 / 10 - 360)%Q 2)).
  reflexivity.
Defined.

(** ** From the constructor to [set] *)

Lemma set_by_pulse (s : Session) (azi eli : Q) :
  0 <= pulse s <= 255 -> az_in_range azi -> el_in_range eli ->
  snd (set azi eli s) = if pulse s =? 0 then Raise IndexError else Ok tt.
Proof.
  intros Hp Ha He. destruct (pulse s =? 0) eqn:E.
  - apply Z.eqb_eq in E.
    rewrite (set_checked s azi eli Ha He), E, set_cmd_zero. reflexivity.
  - apply Z.eqb_neq in E.
    destruct (set_writes s azi eli ltac:(lia) Ha He) as [frame [-> _]].
    reflexivity.
Qed.

(** X8.  When the constructor returns, the object has the device path and
    the debug flag it was given and the pulse resolution of the first
    response, a byte; one [status] frame has been written.  From then on
    [set] on a target in the domain returns, unless the controller reported
    a pulse resolution of 0, in which case it raises [IndexError]. *)
Theorem init_then_set (path : string) (debugging : bool) (port : Serial)
    (s1 : Session) :
  init path debugging port = (s1, Ok tt) ->
  dev_path s1 = path /\ debug s1 = debugging /\ 0 <= pulse s1 <= 255 /\
  written (ser s1) = written port ++ [status_frame] /\
  incoming (ser s1) = skipn 12 (incoming port) /\
  forall azi eli : Q, az_in_range azi -> el_in_range eli ->
    snd (set azi eli s1) = if pulse s1 =? 0 then Raise IndexError else Ok tt.
Proof.
  unfold init, mbind. rewrite status_exchange.
  destruct (exchange status_frame _) as [s' [[[az el] p]|e]] eqn:E; [|discriminate].
  cbn [set_debug]. intros [= <-].
  assert (Hok : snd (exchange status_frame (mkSession 0 false path port))
                = Ok (az, el, p)) by (rewrite E; reflexivity).
  apply exchange_ok in Hok. rewrite E in Hok. cbn [fst] in Hok.
  destruct Hok as [-> Hp].
  cbn [dev_path debug pulse ser with_pulse exchanged written incoming].
  repeat (split; [first [reflexivity | exact Hp]|]).
  intros azi eli Ha He. apply set_by_pulse; [exact Hp | exact Ha | exact He].
Qed.

Lemma init_then_set_witness :
  exists s1 : Session,
    init "COM17" true
      (mkSerial [] [x57; x04; x05; x00; x00; x02; x04; x05; x00; x00; x02; x20])
    = (s1, Ok tt) /\
    pulse s1 = 2 /\ debug s1 = true /\ snd (set 0 0 s1) = Ok tt.
Proof.
  eexists. split; [reflexivity|].
  destruct (init_then_set "COM17" true
              (mkSerial [] [x57; x04; x05; x00; x00; x02; x04; x05; x00; x00; x02; x20])
              _ eq_refl) as (_ & _ & _ & _ & _ & Hset).
  split; [reflexivity|]. split; [reflexivity|].
  apply (Hset 0%Q 0%Q); in_range.
Defined.

(** ** A frame of [set] read back by [status] *)

Lemma digits_as_tenths (n : Z) :
  (inject_Z (n / 1000 mod 10 * 100 + n / 100 mod 10 * 10 + n / 10 mod 10)
   + inject_Z (n mod 10) / 10 - 360
   == inject_Z (n mod 10000) / 10 - 360)%Q.
Proof.
  rewrite <- (digits_value n).
  rewrite !inject_Z_plus, !inject_Z_mult. field.
Qed.

Lemma echo_decode (s s2 : Session) (azi eli : Q) (frame : list byte) :
  1 <= pulse s <= 255 -> az_in_range azi -> el_in_range eli ->
  written (ser (fst (set azi eli s))) = written (ser s) ++ [frame] ->
  incoming (ser s2) = frame ->
  exists az el : Q,
    exchange status_frame s2 =
      (with_pulse (pulse s) (exchanged status_frame s2), Ok (az, el, pulse s)) /\
    (az == inject_Z (raw (pulse s) azi mod 10000) / 10 - 360)%Q /\
    (el == inject_Z (raw (pulse s) eli mod 10000) / 10 - 360)%Q.
Proof.
  intros Hp Ha He Hw Hrx.
  destruct (set_writes s azi eli Hp Ha He) as [frame' [Hset Hmap]].
  rewrite Hset in Hw. cbn [fst ser_write ser written] in Hw.
  apply app_inj_tail in Hw. destruct Hw as [_ <-].
  destruct frame' as [|b0 [|b1 [|b2 [|b3 [|b4 [|b5 [|b6 [|b7 [|b8 [|b9
                     [|b10 [|b11 [|b12 [|b13 tl]]]]]]]]]]]]]];
    try discriminate Hmap.
  cbn [map] in Hmap.
  injection Hmap as H0 H1 H2 H3 H4 H5 H6 H7 H8 H9 H10 H11 H12.
  unfold exchange. rewrite Hrx. cbn [firstn].
  rewrite decode_frame.
  rewrite H1, H2, H3, H4, H5, H6, H7, H8, H9, H10, Z.eqb_refl.
  do 2 eexists. split; [reflexivity|].
  split; apply digits_as_tenths.
Qed.



(** ** How much of the number the four digits hold *)

Lemma raw_upper (p m : Z) (v : Q) :
  0 <= p -> (0 <= v + 360)%Q -> (v + 360 <= inject_Z m)%Q -> raw p v <= p * m.
Proof.
  intros Hp H0 Hm. unfold raw.
  rewrite <- (Qfloor_Z (p * m)). apply Qfloor_resp_le.
  rewrite inject_Z_mult.
  apply Qmult_le_compat_nonneg.
  - split; [|apply Qle_refl]. change 0%Q with (inject_Z 0).
    rewrite <- Zle_Qle. exact Hp.
  - split; assumption.
Qed.

Lemma raw_of_int (p v : Z) : raw p (inject_Z v) = p * (v + 360).
Proof.
  unfold raw.
  assert (H : (inject_Z p * (inject_Z v + 360) == inject_Z (p * (v + 360)))%Q).
  { rewrite inject_Z_mult, inject_Z_plus. reflexivity. }
  rewrite H. apply Qfloor_Z.
Qed.

Lemma raw_bounds (p : Z) (v : Q) :
  (inject_Z (raw p v) <= inject_Z p * (v + 360))%Q /\
  (inject_Z p * (v + 360) < inject_Z (raw p v) + 1)%Q.
Proof.
  unfold raw. split; [apply Qfloor_le|].
  pose proof (Qlt_floor (inject_Z p * (v + 360))) as H.
  rewrite inject_Z_plus in H. exact H.
Qed.





(** ** Decimal digits decode to distinct positions *)

Lemma axis_injective (h t u d h' t' u' d' : Z) :
  0 <= h <= 9 -> 0 <= t <= 9 -> 0 <= u <= 9 -> 0 <= d <= 9 ->
  0 <= h' <= 9 -> 0 <= t' <= 9 -> 0 <= u' <= 9 -> 0 <= d' <= 9 ->
  (inject_Z (h * 100 + t * 10 + u) + inject_Z d / 10 - 360
   == inject_Z (h' * 100 + t' * 10 + u') + inject_Z d' / 10 - 360)%Q ->
  h = h' /\ t = t' /\ u = u' /\ d = d'.
Proof.
  intros Hh Ht Hu Hd Hh' Ht' Hu' Hd' H.
  assert (E : (inject_Z ((h * 100 + t * 10 + u) * 10 + d)
               == inject_Z ((h' * 100 + t' * 10 + u') * 10 + d'))%Q).
  { rewrite !(inject_Z_plus (_ * 10)), !(inject_Z_mult _ 10).
    setoid_replace (inject_Z (h * 100 + t * 10 + u) * inject_Z 10 + inject_Z d)%Q
      with (10 * (inject_Z (h * 100 + t * 10 + u) + inject_Z d / 10 - 360) + 3600)%Q
      by field.
    setoid_replace (inject_Z (h' * 100 + t' * 10 + u') * inject_Z 10 + inject_Z d')%Q
      with (10 * (inject_Z (h' * 100 + t' * 10 + u') + inject_Z d' / 10 - 360) + 3600)%Q
      by field.
    rewrite H. reflexivity. }
  apply (proj1 (inject_Z_injective _ _)) in E.
  assert (Eh : h = h').
  { destruct (Z_lt_le_dec h h'); [exfalso; lia|].
    destruct (Z_lt_le_dec h' h); [exfalso; lia|]. lia. }
  subst h'.
  assert (Et : t = t').
  { destruct (Z_lt_le_dec t t'); [exfalso; lia|].
    destruct (Z_lt_le_dec t' t); [exfalso; lia|]. lia. }
  subst t'.
  assert (Eu : u = u').
  { destruct (Z_lt_le_dec u u'); [exfalso; lia|].
    destruct (Z_lt_le_dec u' u); [exfalso; lia|]. lia. }
  subst u'.
  repeat split; lia.
Qed.



(** ** [test_spiros]: three commands in a row *)

(** X13.  When [test_spiros] returns, it has written three packets, the
    [status] frame, the [stop] frame and a [set] frame, and has taken 24
    bytes from the line; the [set] frame carries the pulse resolution p that
    [stop] returned (not that of [status]) and the digits of 450 * p, the
    number for 90 degrees. *)
Theorem test_spiros_frames (s : Session) :
  snd (test_spiros s) = Ok tt ->
  exists (az el : Q) (p : Z) (frame : list byte),
    snd (stop (fst (status s))) = Ok (az, el, p) /\
    1 <= p <= 255 /\
    written (ser (fst (test_spiros s))) =
      written (ser s) ++ [status_frame; stop_frame; frame] /\
    map int_of_byte frame =
      [0x57;
       450 * p / 1000 mod 10; 450 * p / 100 mod 10; 450 * p / 10 mod 10; 450 * p mod 10;
       p;
       450 * p / 1000 mod 10; 450 * p / 100 mod 10; 450 * p / 10 mod 10; 450 * p mod 10;
       p; 0x2f; 0x20] /\
    incoming (ser (fst (test_spiros s))) = skipn 12 (skipn 12 (incoming (ser s))) /\
    pulse (fst (test_spiros s)) = p.
Proof.
  unfold test_spiros, mbind.
  rewrite status_exchange.
  destruct (exchange status_frame s) as [s1 [r1|e1]] eqn:E1; [|discriminate].
  cbn [fst]. rewrite stop_exchange.
  destruct (exchange stop_frame s1) as [s2 [[[az el] p]|e2]] eqn:E2; [|discriminate].
  intros Hset.
  pose proof (exchange_line status_frame s) as L1. rewrite E1 in L1.
  pose proof (exchange_line stop_frame s1) as L2. rewrite E2 in L2.
  cbn [fst] in L1, L2.
  destruct L1 as (W1 & I1 & _ & _). destruct L2 as (W2 & I2 & _ & _).
  assert (Hok : snd (exchange stop_frame s1) = Ok (az, el, p))
    by (rewrite E2; reflexivity).
  apply exchange_ok in Hok. rewrite E2 in Hok. cbn [fst] in Hok.
  destruct Hok as [Hs2 Hp].
  assert (Hpulse : pulse s2 = p) by (rewrite Hs2; reflexivity).
  assert (Hnz : pulse s2 <> 0).
  { intros Hz.
    rewrite (set_checked s2 90 90) in Hset by in_range.
    rewrite Hz, set_cmd_zero in Hset. discriminate. }
  destruct (set_writes s2 90 90 ltac:(lia) ltac:(in_range) ltac:(in_range))
    as [frame [Hw Hmap]].
  exists az, el, p, frame.
  split; [reflexivity|]. split; [lia|].
  rewrite Hw. cbn [fst ser_write ser written incoming pulse].
  rewrite W2, W1, I2, I1, <- !app_assoc. cbn [app].
  split; [reflexivity|].
  split; [|split; [reflexivity | exact Hpulse]].
  rewrite Hmap, Hpulse.
  change 90%Q with (inject_Z 90). rewrite raw_of_int.
  replace (p * (90 + 360)) with (450 * p) by lia. reflexivity.
Qed.

Lemma test_spiros_frames_witness :
  exists (az el : Q) (p : Z) (frame : list byte),
    snd (stop (fst (status (fresh
      [x57; x04; x05; x00; x00; x01; x04; x05; x00; x00; x01; x20;
       x57; x04; x05; x00; x00; x02; x04; x05; x00; x00; x02; x20]))))
    = Ok (az, el, p) /\
    1 <= p <= 255 /\
    written (ser (fst (test_spiros (fresh
      [x57; x04; x05; x00; x00; x01; x04; x05; x00; x00; x01; x20;
       x57; x04; x05; x00; x00; x02; x04; x05; x00; x00; x02; x20])))) =
      [] ++ [status_frame; stop_frame; frame] /\
    map int_of_byte frame =
      [0x57;
       450 * p / 1000 mod 10; 450 * p / 100 mod 10; 450 * p / 10 mod 10; 450 * p mod 10;
       p;
       450 * p / 1000 mod 10; 450 * p / 100 mod 10; 450 * p / 10 mod 10; 450 * p mod 10;
       p; 0x2f; 0x20] /\
    incoming (ser (fst (test_spiros (fresh
      [x57; x04; x05; x00; x00; x01; x04; x05; x00; x00; x01; x20;
       x57; x04; x05; x00; x00; x02; x04; x05; x00; x00; x02; x20])))) =
      skipn 12 (skipn 12
        [x57; x04; x05; x00; x00; x01; x04; x05; x00; x00; x01; x20;
         x57; x04; x05; x00; x00; x02; x04; x05; x00; x00; x02; x20]) /\
    pulse (fst (test_spiros (fresh
      [x57; x04; x05; x00; x00; x01; x04; x05; x00; x00; x01; x20;
       x57; x04; x05; x00; x00; x02; x04; x05; x00; x00; x02; x20]))) = p.
Proof.
  apply (test_spiros_frames (fresh
      [x57; x04; x05; x00; x00; x01; x04; x05; x00; x00; x01; x20;
       x57; x04; x05; x00; x00; x02; x04; x05; x00; x00; x02; x20])).
  reflexivity.
Defined.

(** ** The [set] command of the command mode *)

(** X14.  In the command mode, with a cached pulse resolution that is a
    byte, a [set] command with a target out of range is absorbed: nothing
    is written, the object is as it was and the loop goes on.  With a target
    in range the command does what [set] does; the one exception that then
    leaves the loop is the [IndexError] of a pulse resolution of 0. *)
Theorem cmd_mode_set_outcome (s : Session) (az el : Q) :
  0 <= pulse s <= 255 ->
  (~ (az_in_range az /\ el_in_range el) -> cmd_mode_set az el s = (s, Ok tt)) /\
  (az_in_range az /\ el_in_range el -> cmd_mode_set az el s = set az el s) /\
  (forall e : exn, snd (cmd_mode_set az el s) = Raise e ->
     e = IndexError /\ pulse s = 0 /\ fst (cmd_mode_set az el s) = s).
Proof.
  intros Hp. unfold cmd_mode_set. rewrite set_unfold.
  destruct (_ && _) eqn:Hr.
  - apply range_checks in Hr. destruct Hr as [Ha He].
    destruct (Z.eq_dec (pulse s) 0) as [Hz | Hnz].
    + rewrite Hz, set_cmd_zero.
      split; [tauto|]. split; [reflexivity|].
      cbn [fst snd]. intros e [= <-]. repeat split.
    + destruct (set_writes s az el ltac:(lia) Ha He) as [frame [Hset _]].
      rewrite (set_checked s az el Ha He) in Hset. rewrite Hset.
      cbn [ser_write].
      split; [tauto|]. split; [reflexivity|].
      cbn [snd]. discriminate.
  - split; [reflexivity|].
    split.
    + intros H. apply range_checks in H. congruence.
    + cbn [snd]. discriminate.
Qed.

Lemma cmd_mode_set_outcome_witness :
  cmd_mode_set 400 90 (with_pulse 1 (fresh [])) = (with_pulse 1 (fresh []), Ok tt).
Proof.
  apply (proj1 (cmd_mode_set_outcome (with_pulse 1 (fresh [])) 400 90 ltac:(cbn; lia))).
  intros [[_ H] _]. apply Qle_bool_iff in H. discriminate.
Defined.

(** ** The manual page: what is drawn and how far it scrolls *)

Lemma content_length : List.length content = 44%nat.
Proof. reflexivity. Qed.

Lemma content_rows_app (l l' : list draw) :
  content_rows (l ++ l') = content_rows l ++ content_rows l'.
Proof.
  induction l as [|[y x text n a | y x text a | ] l IH]; cbn [app content_rows];
    rewrite ?IH; reflexivity.
Qed.

Lemma rows_from_S (line : Z) (k : nat) :
  rows_from line (S k) = line :: rows_from (line + 1) k.
Proof.
  unfold rows_from. cbn [seq map]. rewrite <- seq_shift, map_map.
  f_equal; [lia|]. apply map_ext. intros i. lia.
Qed.

Lemma man_draw_loop_rows (h w line : Z) (rest : list (string * attr)) :
  content_rows (man_draw_loop h w line rest) =
  rows_from line (Z.to_nat (Z.min (h - line) (Z.of_nat (List.length rest)))).
Proof.
  revert line. induction rest as [|[text a] rest IH]; intros line.
  - cbn [man_draw_loop content_rows List.length].
    replace (Z.to_nat (Z.min (h - line) (Z.of_nat 0))) with 0%nat by lia.
    reflexivity.
  - cbn [man_draw_loop]. destruct (line <? h) eqn:E.
    + apply Z.ltb_lt in E. cbn [content_rows]. rewrite IH.
      replace (Z.to_nat (Z.min (h - line) (Z.of_nat (List.length ((text, a) :: rest)))))
        with (S (Z.to_nat (Z.min (h - (line + 1)) (Z.of_nat (List.length rest)))))
        by (cbn [List.length]; lia).
      rewrite rows_from_S. reflexivity.
    + apply Z.ltb_ge in E. cbn [content_rows].
      replace (Z.to_nat (Z.min (h - line) (Z.of_nat (List.length ((text, a) :: rest)))))
        with 0%nat by lia.
      reflexivity.
Qed.

Lemma man_draw_rows_at (h w start : Z) :
  0 <= start ->
  content_rows (man_draw (h, w) start) =
  rows_from 1 (Z.to_nat (Z.min (h - 1) (44 - start))).
Proof.
  intros Hs. unfold man_draw. cbn [fst snd].
  replace (start <? 0) with false by (symmetry; apply Z.ltb_ge; lia).
  rewrite content_rows_app, man_draw_loop_rows. cbn [content_rows].
  rewrite app_nil_r, length_skipn, content_length.
  f_equal. lia.
Qed.

Lemma manual_key_bounds (maxyx : Z * Z) (touched : bool) (c pos pos' : Z)
    (d : list draw) :
  manual_key maxyx touched c pos = (Some pos', d) ->
  (0 <= pos -> 0 <= pos') /\
  (0 <= pos <= Z.max 0 (45 - fst maxyx) -> pos' <= Z.max 0 (45 - fst maxyx)).
Proof.
  unfold manual_key.
  destruct (c =? 113); [discriminate|].
  destruct (c =? KEY_UP).
  { destruct (pos - 1 <? 0) eqn:E; intros [= <- _];
      [apply Z.ltb_lt in E | apply Z.ltb_ge in E]; lia. }
  destruct (c =? KEY_DOWN).
  { destruct (45 - fst maxyx <=? pos) eqn:E.
    - intros [= <- _]. lia.
    - apply Z.leb_gt in E.
      destruct (45 - pos >? fst maxyx); intros [= <- _]; lia. }
  destruct (c =? KEY_F11); intros [= <- _]; lia.
Qed.

Lemma manual_loop_bounds (h : Z) (events : list ((Z * Z) * bool * Z)) (pos : Z) :
  Forall (fun ev => fst (fst (fst ev)) = h) events ->
  0 <= pos <= Z.max 0 (45 - h) ->
  0 <= fst (manual_loop events pos) <= Z.max 0 (45 - h).
Proof.
  intros Hall. revert pos.
  induction Hall as [|[[maxyx touched] c] events Hh _ IH]; intros pos Hpos.
  - exact Hpos.
  - cbn [manual_loop]. cbn [fst] in Hh.
    destruct (manual_key maxyx touched c pos) as [[pos'|] d] eqn:E; [|exact Hpos].
    destruct (manual_key_bounds _ _ _ _ _ _ E) as [B1 B2].
    rewrite Hh in B2.
    specialize (IH pos' ltac:(lia)).
    destruct (manual_loop events pos') as [pos'' d']. exact IH.
Qed.


(** X16.  While the manual page is shown, the scroll position stays
    between 0 and 45 minus the height of the window (0 when the window is
    higher than that), whatever keys are pressed, as long as the window
    keeps its height [h]. *)
Theorem manual_scroll_bounds (h : Z) (events : list ((Z * Z) * bool * Z)) :
  Forall (fun ev => fst (fst (fst ev)) = h) events ->
  0 <= fst (manual_loop events 0) <= Z.max 0 (45 - h).
Proof.
  intros Hall. apply manual_loop_bounds; [exact Hall | lia].
Qed.

Lemma manual_scroll_bounds_witness :
  0 <= fst (manual_loop
              [((24, 80), false, KEY_DOWN); ((24, 80), true, KEY_DOWN);
               ((24, 80), false, KEY_UP); ((24, 80), false, 113)] 0)
    <= Z.max 0 (45 - 24).
Proof.
  apply (manual_scroll_bounds 24). repeat constructor.
Defined.


